(** * The CAPM calculator: evaluator, Security Market Line and presets

    A shallow embedding of the two Streamlit scripts [capm.py] and
    [capm_explained.py].  Both scripts contain the same computational core:

    - [calculate_capm], the closed form [rf + beta * (rm - rf)];
    - the chart data of the first tab: [np.linspace(0, 3, 100)] and the
      broadcast expression [rf + betas * (rm - rf)];
    - button callbacks that assign constants to three keys of
      [st.session_state].

    The scripts run on IEEE binary64: the sliders hand Python floats to
    [calculate_capm] and numpy computes on [float64].  [calculate_capm] is
    written against the arithmetic operators only, as the duck-typed
    Python function is, and is instantiated here at binary64 ([float]), at
    Python values (ints and floats, with the conversion error of mixed
    arithmetic) and at the reals [R].  Statements over [R] are statements
    of exact arithmetic; what holds of the running code is stated on
    binary64 or on Python values. *)

From Stdlib Require Import Reals Lra Lia List Floats ZArith.
From stdpp Require Import gmap strings list.

Set Warnings "-inexact-float".

(** ** Python's arithmetic protocol

    The body of [calculate_capm] uses [+], [-] and [*] and nothing else;
    any type with these three operators can be passed in. *)

Class PyNum (A : Type) : Type := {
  py_add : A -> A -> A;
  py_sub : A -> A -> A;
  py_mul : A -> A -> A
}.

Declare Scope py_scope.
Delimit Scope py_scope with py.
Infix "+" := py_add : py_scope.
Infix "-" := py_sub : py_scope.
Infix "*" := py_mul : py_scope.

#[export] Instance R_PyNum : PyNum R :=
  {| py_add := Rplus; py_sub := Rminus; py_mul := Rmult |}.

#[export] Instance float_PyNum : PyNum float :=
  {| py_add := PrimFloat.add; py_sub := PrimFloat.sub; py_mul := PrimFloat.mul |}.

(** ** Binary64 values

    The sliders hand Python floats to the scripts, and numpy computes on
    [float64]: both are IEEE binary64, Rocq's primitive [float]. *)

Module Binary64.
(** [float(n)] for a small natural number. *)
Definition of_nat (n : nat) : float :=
  PrimFloat.of_uint63 (Uint63.of_Z (Z.of_nat n)).

(** Neither an infinity nor nan. *)
Definition finite (x : float) : bool :=
  match Prim2SF x with
  | S754_zero _ | S754_finite _ _ _ => true
  | _ => false
  end.

(** The positions [0.00, 0.01, ..., n/100] of a slider that moves in
    steps of [0.01] (Streamlit's default step for a float slider): the
    floats nearest to [k/100], which are the floats Python writes [0.01],
    [0.02], ... *)
Definition grid (n : nat) : list float :=
  map (fun k => (of_nat k / 100)%float) (seq 0 (S n)).

(** Each element is strictly below the next one. *)
Fixpoint ascending (l : list float) : bool :=
  match l with
  | x :: (y :: _) as t => (x <? y)%float && ascending t
  | _ => true
  end.


(** The differences of neighbouring elements, as binary64 computes them. *)
Fixpoint gaps (l : list float) : list float :=
  match l with
  | x :: (y :: _) as t => (y - x)%float :: gaps t
  | _ => []
  end.
End Binary64.

(** ** The fragment of numpy the scripts call

    numpy is a dependency, not part of the scripts.  [linspace] follows its
    definition for the default [endpoint=True]: the integers [0 .. num-1]
    are scaled by [step = (stop - start) / (num - 1)], shifted by [start],
    and the last sample is then overwritten with [stop]. *)

Module Numpy.
Local Open Scope R_scope.

Abbreviation ndarray := (list R).

(** [np.arange(0, num)] as reals. *)
Definition arange (num : nat) : ndarray := map INR (seq 0 num).

Definition linspace (start stop : R) (num : nat) : ndarray :=
  let div := (num - 1)%nat in
  let delta := stop - start in
  let y := arange num in
  let y :=
    if (0 <? div)%nat then
      let step := delta / INR div in
      if Req_dec_T step 0
      then map (fun v => v / INR div * delta) y
      else map (fun v => v * step) y
    else map (fun v => v * delta) y in
  let y := map (fun v => v + start) y in
  if (1 <? num)%nat then <[(num - 1)%nat := stop]> y else y.

(** Broadcasting of a scalar against an array: [a * k] and [k + a]. *)
Definition multiply_scalar (a : ndarray) (k : R) : ndarray :=
  map (fun v => v * k) a.

Definition scalar_add (k : R) (a : ndarray) : ndarray :=
  map (fun v => k + v) a.

(** The same functions on [float64] arrays, operation for operation. *)
Abbreviation ndarray64 := (list float).

Definition arange64 (num : nat) : ndarray64 := map Binary64.of_nat (seq 0 num).

Definition linspace64 (start stop : float) (num : nat) : ndarray64 :=
  let div := (num - 1)%nat in
  let delta := (stop - start)%float in
  let y := arange64 num in
  let y :=
    if (0 <? div)%nat then
      let step := (delta / Binary64.of_nat div)%float in
      if (step =? 0)%float
      then map (fun v => (v / Binary64.of_nat div * delta)%float) y
      else map (fun v => (v * step)%float) y
    else map (fun v => (v * delta)%float) y in
  let y := map (fun v => (v + start)%float) y in
  if (1 <? num)%nat then <[(num - 1)%nat := stop]> y else y.

Definition multiply_scalar64 (a : ndarray64) (k : float) : ndarray64 :=
  map (fun v => (v * k)%float) a.

Definition scalar_add64 (k : float) (a : ndarray64) : ndarray64 :=
  map (fun v => (k + v)%float) a.
End Numpy.

(** ** Streamlit's session state and the data handed to the chart *)

Module Streamlit.
(** [st.session_state]: a dictionary from widget keys to their values. *)
Abbreviation session_state := (gmap string R).

(** A button callback runs against the session state and returns nothing. *)
Definition callback : Type := session_state -> session_state.

(** [st.session_state[key] = value] *)
Definition setitem (key : string) (value : R) : callback :=
  fun st => <[key := value]> st.

(** Two statements in sequence. *)
Definition then_ (c1 c2 : callback) : callback := fun st => c2 (c1 st).

(** The values of the three sliders, by their keys. *)
Definition parameters (st : session_state) : option R * option R * option R :=
  (st !! "rf_slider", st !! "rm_slider", st !! "beta_slider").
(** The arguments of one [st.slider(label, min_value, max_value, value,
    key=...)] call. *)
Record slider_args : Type := {
  min_value : R;
  max_value : R;
  value : R;
  key : string
}.

(** A keyed widget keeps its value in the session state: on the first run
    it stores its default under its key, afterwards it returns what is
    stored there (which is how the callbacks move the sliders).  Streamlit
    raises an exception for a stored value outside
    [[min_value, max_value]]; that path is not modelled, and what is
    proved of a run assumes [sliders_in_range], which the widget and the
    callbacks of the scripts maintain. *)
Definition slider (a : slider_args) (st : session_state) : R * session_state :=
  match st !! key a with
  | Some v => (v, st)
  | None => (value a, <[key a := value a]> st)
  end.

(** [v] is a position the slider [a] can show. *)
Definition in_range (a : slider_args) (v : R) : Prop :=
  (min_value a <= v <= max_value a)%R.
End Streamlit.

Declare Scope callback_scope.
Delimit Scope callback_scope with cb.
Notation "c1 ;; c2" := (Streamlit.then_ c1 c2)
  (at level 100, c2 at level 200, right associativity) : callback_scope.

(** What the first tab passes to matplotlib: the arguments of [ax.plot],
    [ax.scatter] and [ax.axhline]. *)
Record figure : Type := {
  plot_x : list R;
  plot_y : list R;
  scatter : R * R;
  axhline : R
}.

(** The same arguments as binary64 values. *)
Record figure64 : Type := {
  plot_x64 : list float;
  plot_y64 : list float;
  scatter64 : float * float;
  axhline64 : float
}.

(** ** Python values and calls

    A Python caller can pass ints as well as floats.  Ints are unbounded
    and their arithmetic is exact; floats are binary64 and their [+], [-],
    [*] never raise; an int that meets a float is first converted to a
    float, rounding to nearest even, and that conversion raises
    [OverflowError] when the int is too large.  Other types are not
    modelled.  An expression is evaluated in a session: it yields an
    outcome and the session state after it. *)

Module Python.
Inductive exn : Type := OverflowError.

Inductive value : Type :=
  | PyInt (n : Z)
  | PyFloat (x : float).

Inductive outcome : Type :=
  | Returns (v : value)
  | Raises (e : exn).

Definition call : Type :=
  Streamlit.session_state -> outcome * Streamlit.session_state.

(** Reading a variable that holds [v]. *)
Definition ret (v : value) : call := fun st => (Returns v, st).

Definition int_to_float (n : Z) : exn + float :=
  match binary_normalize prec emax n 0 false with
  | S754_infinity _ => inl OverflowError
  | x => inr (SF2Prim x)
  end.

(** One arithmetic operator on two values: [fz] on ints, [ff] on floats. *)
Definition arith (fz : Z -> Z -> Z) (ff : float -> float -> float)
    (a b : value) : outcome :=
  match a, b with
  | PyInt m, PyInt n => Returns (PyInt (fz m n))
  | PyFloat x, PyFloat y => Returns (PyFloat (ff x y))
  | PyInt m, PyFloat y =>
      match int_to_float m with
      | inl e => Raises e
      | inr x => Returns (PyFloat (ff x y))
      end
  | PyFloat x, PyInt n =>
      match int_to_float n with
      | inl e => Raises e
      | inr y => Returns (PyFloat (ff x y))
      end
  end.

(** [e1 op e2]: left operand first, an exception ends the evaluation. *)
Definition binop (op : value -> value -> outcome) (e1 e2 : call) : call :=
  fun st =>
    match e1 st with
    | (Raises e, st1) => (Raises e, st1)
    | (Returns a, st1) =>
        match e2 st1 with
        | (Raises e, st2) => (Raises e, st2)
        | (Returns b, st2) => (op a b, st2)
        end
    end.

#[global] Instance call_PyNum : PyNum call :=
  {| py_add := binop (arith Z.add PrimFloat.add);
     py_sub := binop (arith Z.sub PrimFloat.sub);
     py_mul := binop (arith Z.mul PrimFloat.mul) |}.

(** A call [f(a, b, c)] of a function of three parameters. *)
Definition call3 (f : call -> call -> call -> call) (a b c : value) : call :=
  f (ret a) (ret b) (ret c).
End Python.

(** ** [capm_explained.py] *)

Module CapmExplained.
Import Streamlit.
Local Open Scope R_scope.

Definition reset_parameters : callback :=
  (setitem "rf_slider" 0.02 ;;
   setitem "rm_slider" 0.08 ;;
   setitem "beta_slider" 1.0)%cb.

Definition set_lab1_parameters : callback :=
  (setitem "rf_slider" 0.02 ;;
   setitem "rm_slider" 0.08 ;;
   setitem "beta_slider" 1.5)%cb.

Definition set_lab2_parameters : callback :=
  (setitem "rf_slider" 0.03 ;;
   setitem "rm_slider" 0.12 ;;
   setitem "beta_slider" 2.0)%cb.

Definition set_lab3_parameters : callback :=
  (setitem "rf_slider" 0.01 ;;
   setitem "rm_slider" 0.05 ;;
   setitem "beta_slider" 0.5)%cb.

Definition set_lab4_parameters : callback :=
  (setitem "rf_slider" 0.04 ;;
   setitem "rm_slider" 0.10 ;;
   setitem "beta_slider" 0.8)%cb.

Definition set_lab5_parameters : callback :=
  (setitem "rf_slider" 0.02 ;;
   setitem "rm_slider" 0.06 ;;
   setitem "beta_slider" 1.2)%cb.

Definition calculate_capm {A : Type} `{PyNum A} (rf rm beta : A) : A :=
  let expected_return := (rf + beta * (rm - rf))%py in
  expected_return.

(** The buttons of the page and the callback each one is wired to
    ([on_click=...]). *)
Inductive button : Type :=
  | ResetParameters | SetLab1 | SetLab2 | SetLab3 | SetLab4 | SetLab5.

Definition on_click (b : button) : callback :=
  match b with
  | ResetParameters => reset_parameters
  | SetLab1 => set_lab1_parameters
  | SetLab2 => set_lab2_parameters
  | SetLab3 => set_lab3_parameters
  | SetLab4 => set_lab4_parameters
  | SetLab5 => set_lab5_parameters
  end.

(** The chart of the first tab. *)
Definition betas : list R := Numpy.linspace 0 3 100.

Definition returns (rf rm : R) : list R :=
  Numpy.scalar_add rf (Numpy.multiply_scalar betas (rm - rf)).

Definition tab1 (rf rm beta : R) : figure :=
  let expected_return := calculate_capm rf rm beta in
  {| plot_x := betas;
     plot_y := returns rf rm;
     scatter := (beta, expected_return);
     axhline := rf |}.
(** The three sliders of the sidebar. *)
Definition rf_slider : slider_args :=
  {| min_value := 0.0; max_value := 0.1; value := 0.02; key := "rf_slider" |}.

Definition rm_slider : slider_args :=
  {| min_value := 0.0; max_value := 0.2; value := 0.08; key := "rm_slider" |}.

Definition beta_slider : slider_args :=
  {| min_value := 0.0; max_value := 3.0; value := 1.0; key := "beta_slider" |}.

Definition sidebar (st : session_state) : (R * R * R) * session_state :=
  let '(rf, st) := slider rf_slider st in
  let '(rm, st) := slider rm_slider st in
  let '(beta, st) := slider beta_slider st in
  ((rf, rm, beta), st).

(** One run of the script: the sidebar, then the first tab.  The state
    returned is the slider part of the session state; the entries Streamlit
    keeps for other keyed widgets (the lab buttons) are not modelled, and
    nothing is stated about them. *)
Definition script (st : session_state) : figure * session_state :=
  let '((rf, rm, beta), st) := sidebar st in
  (tab1 rf rm beta, st).

(** Every stored slider value is a position its slider can show. *)
Definition sliders_in_range (st : session_state) : Prop :=
  Forall (fun a => forall v : R, st !! key a = Some v -> in_range a v)
         [rf_slider; rm_slider; beta_slider].

(** The radio of the labs tab and the [if]/[elif]/[else] chain that shows
    one lab, with its button, per choice. *)
Definition lab_options : list string :=
  ["Lab 1: Beta Sensitivity";
   "Lab 2: Market Risk Premium";
   "Lab 3: Portfolio Construction";
   "Lab 4: Defensive vs Aggressive Stocks";
   "Lab 5: High-Risk Environments"]%string.

Definition lab_button (lab_choice : string) : button :=
  if String.eqb lab_choice "Lab 1: Beta Sensitivity" then SetLab1
  else if String.eqb lab_choice "Lab 2: Market Risk Premium" then SetLab2
  else if String.eqb lab_choice "Lab 3: Portfolio Construction" then SetLab3
  else if String.eqb lab_choice "Lab 4: Defensive vs Aggressive Stocks" then SetLab4
  else SetLab5.
(** The chart of the first tab as the scripts compute it, on binary64. *)
Definition betas64 : list float := Numpy.linspace64 0 3 100.

Definition returns64 (rf rm : float) : list float :=
  Numpy.scalar_add64 rf (Numpy.multiply_scalar64 betas64 (rm - rf)%float).

Definition tab1_64 (rf rm beta : float) : figure64 :=
  let expected_return := calculate_capm rf rm beta in
  {| plot_x64 := betas64;
     plot_y64 := returns64 rf rm;
     scatter64 := (beta, expected_return);
     axhline64 := rf |}.
End CapmExplained.

(** ** [capm.py] *)

Module Capm.
Import Streamlit.
Local Open Scope R_scope.

Definition reset_parameters : callback :=
  (setitem "rf_slider" 0.02 ;;
   setitem "rm_slider" 0.08 ;;
   setitem "beta_slider" 1.0)%cb.

Definition calculate_capm {A : Type} `{PyNum A} (rf rm beta : A) : A :=
  let expected_return := (rf + beta * (rm - rf))%py in
  expected_return.

Definition betas : list R := Numpy.linspace 0 3 100.

Definition returns (rf rm : R) : list R :=
  Numpy.scalar_add rf (Numpy.multiply_scalar betas (rm - rf)).

Definition tab1 (rf rm beta : R) : figure :=
  let expected_return := calculate_capm rf rm beta in
  {| plot_x := betas;
     plot_y := returns rf rm;
     scatter := (beta, expected_return);
     axhline := rf |}.
(** The three sliders of the sidebar. *)
Definition rf_slider : slider_args :=
  {| min_value := 0.0; max_value := 0.1; value := 0.02; key := "rf_slider" |}.

Definition rm_slider : slider_args :=
  {| min_value := 0.0; max_value := 0.2; value := 0.08; key := "rm_slider" |}.

Definition beta_slider : slider_args :=
  {| min_value := 0.0; max_value := 3.0; value := 1.0; key := "beta_slider" |}.

Definition sidebar (st : session_state) : (R * R * R) * session_state :=
  let '(rf, st) := slider rf_slider st in
  let '(rm, st) := slider rm_slider st in
  let '(beta, st) := slider beta_slider st in
  ((rf, rm, beta), st).

(** One run of the script: the sidebar, then the first tab.  The state
    returned is the slider part of the session state; the entries Streamlit
    keeps for other keyed widgets (the lab buttons) are not modelled, and
    nothing is stated about them. *)
Definition script (st : session_state) : figure * session_state :=
  let '((rf, rm, beta), st) := sidebar st in
  (tab1 rf rm beta, st).

(** Every stored slider value is a position its slider can show. *)
Definition sliders_in_range (st : session_state) : Prop :=
  Forall (fun a => forall v : R, st !! key a = Some v -> in_range a v)
         [rf_slider; rm_slider; beta_slider].
(** The chart of the first tab as the scripts compute it, on binary64. *)
Definition betas64 : list float := Numpy.linspace64 0 3 100.

Definition returns64 (rf rm : float) : list float :=
  Numpy.scalar_add64 rf (Numpy.multiply_scalar64 betas64 (rm - rf)%float).

Definition tab1_64 (rf rm beta : float) : figure64 :=
  let expected_return := calculate_capm rf rm beta in
  {| plot_x64 := betas64;
     plot_y64 := returns64 rf rm;
     scatter64 := (beta, expected_return);
     axhline64 := rf |}.
End Capm.

(** ** The preset table of the specification

    The second description of the presets, taken from the table of the
    external-interfaces section: one constant triple [(rf, rm, beta)] per
    trigger. *)

Definition spec_preset_table (b : CapmExplained.button) : R * R * R :=
  match b with
  | CapmExplained.ResetParameters => (0.02, 0.08, 1.0)
  | CapmExplained.SetLab1 => (0.02, 0.08, 1.5)
  | CapmExplained.SetLab2 => (0.03, 0.12, 2.0)
  | CapmExplained.SetLab3 => (0.01, 0.05, 0.5)
  | CapmExplained.SetLab4 => (0.04, 0.10, 0.8)
  | CapmExplained.SetLab5 => (0.02, 0.06, 1.2)
  end%R.

(** ** The contract of the curve generator

    What the specification asks of a curve of [n] points for an evaluator
    [f]: [n] grid values and [n] samples, the grid starts at 0, ends at 3,
    is strictly ascending with equal gaps, and sample [i] is [f] at grid
    value [i]. *)

Definition sml_curve_contract (n : nat) (f : R -> R) (xs ys : list R) : Prop :=
  length xs = n /\ length ys = n /\
  head xs = Some 0%R /\ last xs = Some 3%R /\
  (forall (i j : nat) (bi bj : R),
      xs !! i = Some bi -> xs !! j = Some bj -> (i < j)%nat -> (bi < bj)%R) /\
  (forall (i : nat) (bi bj : R),
      xs !! i = Some bi -> xs !! S i = Some bj -> (bj - bi = 3 / INR (n - 1))%R) /\
  (forall (i : nat) (b : R), xs !! i = Some b -> ys !! i = Some (f b)).

(** ** The contract of the curve generator on binary64

    As above for the float64 arrays the scripts plot; the gaps are asked
    to lie within [2^-51] of [3 / (n - 1)], since rounding makes them
    unequal. *)

Definition sml_curve_contract64 (n : nat) (f : float -> float)
    (xs ys : list float) : Prop :=
  length xs = n /\ length ys = n /\
  head xs = Some 0%float /\ last xs = Some 3%float /\
  (forall (i j : nat) (bi bj : float),
      xs !! i = Some bi -> xs !! j = Some bj -> (i < j)%nat ->
      (bi <? bj)%float = true) /\
  (forall (i : nat) (bi bj : float),
      xs !! i = Some bi -> xs !! S i = Some bj ->
      (abs (bj - bi - 3 / Binary64.of_nat (n - 1)) <=? 0x1p-51)%float = true) /\
  (forall (i : nat) (b : float), xs !! i = Some b -> ys !! i = Some (f b)).

(** ** Checks run over the slider positions

    For one pair [(rf, rm)]: along the 301 positions of the beta slider the
    expected returns rise strictly if [rf < rm], fall strictly if
    [rm < rf], and all equal [rf] if [rm == rf]. *)


(** For one pair [(rf, rm)]: at beta one the expected return is within
    [2^-56] of [rm]. *)
Definition beta_one_check (rf rm : float) : bool :=
  (abs (CapmExplained.calculate_capm rf rm 1 - rm) <=? 0x1p-56)%float.

(** * Properties *)

Local Open Scope R_scope.

Ltac capm_unfold :=
  unfold CapmExplained.calculate_capm, Capm.calculate_capm; cbn [py_add py_sub py_mul R_PyNum].

(** ** The evaluator *)

Lemma capm_explained_formula (rf rm beta : R) :
  CapmExplained.calculate_capm rf rm beta = rf + beta * (rm - rf).
Proof. reflexivity. Qed.

Lemma capm_formula (rf rm beta : R) :
  Capm.calculate_capm rf rm beta = rf + beta * (rm - rf).
Proof. reflexivity. Qed.

(** ** Arrays: lookups through [map], [arange], [linspace] *)

Lemma lookup_map {A B : Type} (f : A -> B) (l : list A) (i : nat) :
  map f l !! i = f <$> (l !! i).
Proof.
  revert i; induction l as [|x l IH]; intros [|i]; simpl; auto.
Qed.

Lemma arange_length (num : nat) : length (Numpy.arange num) = num.
Proof. unfold Numpy.arange. now rewrite length_map, length_seq. Qed.

Lemma arange_lookup (num i : nat) :
  (i < num)%nat -> Numpy.arange num !! i = Some (INR i).
Proof.
  intros Hi. unfold Numpy.arange.
  rewrite lookup_map, lookup_seq_lt by lia. reflexivity.
Qed.

Lemma linspace_length (start stop : R) (num : nat) :
  length (Numpy.linspace start stop num) = num.
Proof.
  unfold Numpy.linspace.
  destruct (Nat.ltb 1 num); [rewrite length_insert|];
    destruct (Nat.ltb 0 (num - 1)%nat); try destruct (Req_dec_T _ _);
    now rewrite !length_map, arange_length.
Qed.

(** Every sample of [linspace] sits at [start + i * step]; the stored last
    sample [stop] is the same real number. *)
Lemma linspace_lookup (start stop : R) (num i : nat) :
  (1 < num)%nat -> (i < num)%nat ->
  exists v, Numpy.linspace start stop num !! i = Some v /\
            v = start + INR i * ((stop - start) / INR (num - 1)).
Proof.
  intros Hnum Hi.
  assert (Hdiv : INR (num - 1) <> 0) by (apply not_0_INR; lia).
  unfold Numpy.linspace.
  replace (Nat.ltb 1 num) with true by (symmetry; apply Nat.ltb_lt; lia).
  replace (Nat.ltb 0 (num - 1)%nat) with true by (symmetry; apply Nat.ltb_lt; lia).
  destruct (Nat.eq_dec i (num - 1)%nat) as [->|Hne].
  - exists stop. split.
    + apply list_lookup_insert_eq.
      destruct (Req_dec_T _ _); rewrite !length_map, arange_length; lia.
    + field. exact Hdiv.
  - rewrite list_lookup_insert_ne by lia.
    destruct (Req_dec_T _ _) as [Hz|Hnz];
      rewrite !lookup_map, arange_lookup by lia; simpl;
      eexists; (split; [reflexivity|]).
    + rewrite Hz.
      assert (Hd : stop - start = 0).
      { apply (Rmult_eq_reg_r (/ INR (num - 1))).
        - unfold Rdiv in Hz. rewrite Hz. ring.
        - now apply Rinv_neq_0_compat. }
      rewrite Hd. ring.
    + ring.
Qed.

(** ** The chart data *)

Lemma betas_same : Capm.betas = CapmExplained.betas.
Proof. reflexivity. Qed.

Lemma returns_same (rf rm : R) : Capm.returns rf rm = CapmExplained.returns rf rm.
Proof. reflexivity. Qed.

Lemma betas_length : length CapmExplained.betas = 100%nat.
Proof. apply linspace_length. Qed.

(** Sample [i] of the grid is [i / 33], that is [3 * i / 99]. *)
Lemma betas_lookup (i : nat) :
  (i < 100)%nat ->
  exists b, CapmExplained.betas !! i = Some b /\ b = INR i / 33.
Proof.
  intros Hi.
  destruct (linspace_lookup 0 3 100 i) as (b & Hb & Eb); [lia | exact Hi |].
  exists b. split; [exact Hb|].
  rewrite Eb. change (100 - 1)%nat with 99%nat.
  rewrite (INR_IZR_INZ 99). change (Z.of_nat 99) with 99%Z. lra.
Qed.

Lemma betas_lookup_lt (i : nat) (b : R) :
  CapmExplained.betas !! i = Some b -> (i < 100)%nat /\ b = INR i / 33.
Proof.
  intros Hb.
  assert (Hi : (i < 100)%nat).
  { rewrite <- betas_length. now apply lookup_lt_Some with b. }
  split; [exact Hi|].
  destruct (betas_lookup i Hi) as (b' & Hb' & Eb). congruence.
Qed.

Lemma returns_lookup (rf rm : R) (i : nat) :
  CapmExplained.returns rf rm !! i =
  (fun b => rf + b * (rm - rf)) <$> (CapmExplained.betas !! i).
Proof.
  unfold CapmExplained.returns, Numpy.scalar_add, Numpy.multiply_scalar.
  rewrite !lookup_map. now destruct (CapmExplained.betas !! i).
Qed.

Lemma returns_length (rf rm : R) : length (CapmExplained.returns rf rm) = 100%nat.
Proof.
  unfold CapmExplained.returns, Numpy.scalar_add, Numpy.multiply_scalar.
  rewrite !length_map. apply betas_length.
Qed.

(** ** Callbacks on the session state *)

Lemma setitem3_parameters (a b c : R) (st : Streamlit.session_state) :
  Streamlit.parameters
    ((Streamlit.setitem "rf_slider" a ;;
      Streamlit.setitem "rm_slider" b ;;
      Streamlit.setitem "beta_slider" c)%cb st)
  = (Some a, Some b, Some c).
Proof.
  unfold Streamlit.parameters, Streamlit.then_, Streamlit.setitem.
  now simplify_map_eq.
Qed.

Lemma setitem3_frame (a b c : R) (st : Streamlit.session_state) (k : string) :
  k <> "rf_slider" -> k <> "rm_slider" -> k <> "beta_slider" ->
  (Streamlit.setitem "rf_slider" a ;;
   Streamlit.setitem "rm_slider" b ;;
   Streamlit.setitem "beta_slider" c)%cb st !! k = st !! k.
Proof.
  intros. unfold Streamlit.then_, Streamlit.setitem.
  now rewrite !lookup_insert_ne by congruence.
Qed.

(** In exact arithmetic the grid is evenly spaced, with gap [3/99]. *)
Lemma betas_contract (rf rm : R) :
  sml_curve_contract 100 (CapmExplained.calculate_capm rf rm)
    CapmExplained.betas (CapmExplained.returns rf rm).
Proof.
  unfold sml_curve_contract.
  split; [apply betas_length|].
  split; [apply returns_length|].
  split; [|split; [|split; [|split]]].
  - rewrite head_lookup.
    destruct (betas_lookup 0) as (b & -> & ->); [lia|].
    f_equal. simpl. lra.
  - rewrite last_lookup, betas_length.
    destruct (betas_lookup 99) as (b & Hb & ->); [lia|].
    simpl Init.Nat.pred. rewrite Hb. f_equal.
    rewrite (INR_IZR_INZ 99). change (Z.of_nat 99) with 99%Z. lra.
  - intros i j bi bj Hi Hj Hij.
    apply betas_lookup_lt in Hi as [_ ->].
    apply betas_lookup_lt in Hj as [_ ->].
    apply lt_INR in Hij. lra.
  - intros i bi bj Hi Hj.
    apply betas_lookup_lt in Hi as [_ ->].
    apply betas_lookup_lt in Hj as [_ ->].
    rewrite S_INR. change (100 - 1)%nat with 99%nat.
    rewrite (INR_IZR_INZ 99). change (Z.of_nat 99) with 99%Z. lra.
  - intros i b Hb. rewrite returns_lookup, Hb. reflexivity.
Qed.

(** * Binary64: order and computed facts *)

Lemma SFltb_trans (a b c : spec_float) :
  SFltb a b = true -> SFltb b c = true -> SFltb a c = true.
Proof.
  unfold SFltb, SFcompare.
  destruct a as [sa|sa| |sa ma ea], b as [sb|sb| |sb mb eb], c as [sc|sc| |sc mc ec];
    try discriminate; try reflexivity;
    repeat match goal with s : bool |- _ => destruct s end;
    try discriminate; try reflexivity;
    destruct (Z.compare_spec ea eb), (Z.compare_spec eb ec), (Z.compare_spec ea ec);
    try discriminate; try reflexivity; try lia; subst;
    rewrite ?Pos.compare_cont_spec; simpl;
    destruct (Pos.compare_spec ma mb), (Pos.compare_spec mb mc), (Pos.compare_spec ma mc);
    simpl; try discriminate; try reflexivity; try lia.
Qed.


Lemma float_ltb_trans (x y z : float) :
  (x <? y)%float = true -> (y <? z)%float = true -> (x <? z)%float = true.
Proof. rewrite !FloatAxioms.ltb_spec. apply SFltb_trans. Qed.


Lemma ascending_lookup (l : list float) (i j : nat) (x y : float) :
  Binary64.ascending l = true ->
  l !! i = Some x -> l !! j = Some y -> (i < j)%nat -> (x <? y)%float = true.
Proof.
  revert i j x y. induction l as [|a l IH]; intros i j x y Hs Hi Hj Hij.
  - discriminate.
  - destruct j as [|j]; [lia|].
    assert (Hl : Binary64.ascending l = true).
    { destruct l; [reflexivity|]. simpl in Hs. now apply andb_true_iff in Hs. }
    destruct i as [|i].
    + simpl in Hi. injection Hi as ->. simpl in Hj.
      destruct l as [|b l]; [discriminate|].
      simpl in Hs. apply andb_true_iff in Hs as [Hab _].
      destruct j as [|j].
      * simpl in Hj. now injection Hj as ->.
      * apply float_ltb_trans with b; [exact Hab|].
        apply (IH 0%nat (S j)); auto. lia.
    + simpl in Hi, Hj. apply (IH i j); auto. lia.
Qed.



Lemma gaps_lookup (l : list float) (i : nat) (x y : float) :
  l !! i = Some x -> l !! S i = Some y -> Binary64.gaps l !! i = Some (y - x)%float.
Proof.
  revert i. induction l as [|a l IH]; intros i Hi Hj; [discriminate|].
  destruct l as [|b l]; [discriminate|].
  destruct i as [|i].
  - simpl in *. congruence.
  - simpl in Hi, Hj. simpl. apply IH; assumption.
Qed.





Lemma lookup_In {A : Type} (x : A) (l : list A) (i : nat) :
  l !! i = Some x -> In x l.
Proof. intros H. apply list_elem_of_In. now apply list_elem_of_lookup_2 with i. Qed.

Local Open Scope float_scope.


Lemma SFeqb_refl_finite (x : spec_float) :
  match x with S754_zero _ | S754_finite _ _ _ => true | _ => false end = true ->
  SFeqb x x = true.
Proof.
  unfold SFeqb, SFcompare.
  destruct x as [s|s| |[] m e]; try discriminate; try reflexivity;
    intros _; rewrite Z.compare_refl, Pos.compare_cont_refl; reflexivity.
Qed.

Lemma beta_zero_finite (rf rm : float) :
  Binary64.finite rf = true -> Binary64.finite (rm - rf) = true ->
  (CapmExplained.calculate_capm rf rm 0 =? rf) = true.
Proof.
  unfold Binary64.finite, CapmExplained.calculate_capm. cbn [py_add py_sub py_mul float_PyNum].
  intros Hrf Hd.
  rewrite FloatAxioms.eqb_spec, FloatAxioms.add_spec, FloatAxioms.mul_spec.
  change (Prim2SF 0) with (S754_zero false).
  destruct (Prim2SF (rm - rf)) as [sd|sd| |sd md ed]; try discriminate;
    destruct (Prim2SF rf) as [s|s| |s m e] eqn:E; try discriminate;
    unfold SF64mul, SF64add, SFmul, SFadd; simpl.
  all: try (destruct s, sd; reflexivity).
  all: try (destruct s; reflexivity).
  all: apply SFeqb_refl_finite; reflexivity.
Qed.

Lemma grid_check_c5 :
  forallb (fun rf => forallb (beta_one_check rf) (Binary64.grid 20))
          (Binary64.grid 10) = true.
Proof. vm_compute. reflexivity. Qed.

Lemma grid_beta_one (rf rm : float) :
  In rf (Binary64.grid 10) -> In rm (Binary64.grid 20) ->
  (abs (CapmExplained.calculate_capm rf rm 1 - rm) <=? 0x1p-56) = true.
Proof.
  intros Hrf Hrm. pose proof grid_check_c5 as Hc.
  rewrite forallb_forall in Hc. specialize (Hc rf Hrf).
  rewrite forallb_forall in Hc. exact (Hc rm Hrm).
Qed.

(** ** Calls with Python values *)

Lemma call3_floats (a b c : float) (st : Streamlit.session_state) :
  Python.call3 CapmExplained.calculate_capm
    (Python.PyFloat a) (Python.PyFloat b) (Python.PyFloat c) st
  = (Python.Returns (Python.PyFloat (CapmExplained.calculate_capm a b c)), st).
Proof. reflexivity. Qed.

Lemma call3_ints (a b c : Z) (st : Streamlit.session_state) :
  Python.call3 CapmExplained.calculate_capm
    (Python.PyInt a) (Python.PyInt b) (Python.PyInt c) st
  = (Python.Returns (Python.PyInt (a + c * (b - a))), st).
Proof. reflexivity. Qed.

(** ** The binary64 grid of the chart *)

Lemma betas64_same : Capm.betas64 = CapmExplained.betas64.
Proof. reflexivity. Qed.

Lemma returns64_same (rf rm : float) : Capm.returns64 rf rm = CapmExplained.returns64 rf rm.
Proof. reflexivity. Qed.

Lemma betas64_length : length CapmExplained.betas64 = 100%nat.
Proof. vm_compute. reflexivity. Qed.

Lemma betas64_ascending : Binary64.ascending CapmExplained.betas64 = true.
Proof. vm_compute. reflexivity. Qed.

Lemma betas64_gaps :
  forallb (fun g => abs (g - 3 / Binary64.of_nat 99) <=? 0x1p-51)
          (Binary64.gaps CapmExplained.betas64) = true.
Proof. vm_compute. reflexivity. Qed.

Lemma returns64_lookup (rf rm : float) (i : nat) :
  CapmExplained.returns64 rf rm !! i =
  CapmExplained.calculate_capm rf rm <$> (CapmExplained.betas64 !! i).
Proof.
  unfold CapmExplained.returns64, Numpy.scalar_add64, Numpy.multiply_scalar64.
  rewrite !lookup_map. now destruct (CapmExplained.betas64 !! i).
Qed.

Lemma returns64_length (rf rm : float) :
  length (CapmExplained.returns64 rf rm) = 100%nat.
Proof.
  unfold CapmExplained.returns64, Numpy.scalar_add64, Numpy.multiply_scalar64.
  rewrite !length_map. apply betas64_length.
Qed.


Local Close Scope float_scope.

(** * The claims *)

(** C1. For all reals [rf], [rm] and [beta], [calculate_capm] returns
    exactly [rf + beta * (rm - rf)], in both scripts; no range restriction
    is imposed on the inputs. *)
Theorem calculate_capm_closed_form (rf rm beta : R) :
  CapmExplained.calculate_capm rf rm beta = rf + beta * (rm - rf) /\
  Capm.calculate_capm rf rm beta = rf + beta * (rm - rf).
Proof. split; [apply capm_explained_formula | apply capm_formula]. Qed.

(** Negative inputs and a negative result, outside every slider range. *)
Example calculate_capm_negative :
  CapmExplained.calculate_capm (-0.01) (-0.05) 2 = -0.09 /\
  CapmExplained.calculate_capm 0.04 0.01 (-3) = 0.13 /\
  CapmExplained.calculate_capm 0.02 0.08 (-1000000) = -59999.98.
Proof. capm_unfold. repeat split; lra. Qed.

Lemma betas64_contract (rf rm : float) :
  sml_curve_contract64 100 (CapmExplained.calculate_capm rf rm)
    CapmExplained.betas64 (CapmExplained.returns64 rf rm).
Proof.
  unfold sml_curve_contract64.
  split; [apply betas64_length|].
  split; [apply returns64_length|].
  split; [vm_compute; reflexivity|].
  split; [vm_compute; reflexivity|].
  split; [|split].
  - intros i j bi bj Hi Hj Hij.
    exact (ascending_lookup _ i j bi bj betas64_ascending Hi Hj Hij).
  - intros i bi bj Hi Hj.
    pose proof betas64_gaps as Hg. rewrite forallb_forall in Hg.
    apply (Hg (bj - bi)%float).
    apply lookup_In with i. now apply gaps_lookup.
  - intros i b Hb. rewrite returns64_lookup, Hb. reflexivity.
Qed.

(** C2. For all floats [rf] and [rm], the curve of the first
    tab has exactly 100 grid values and 100 samples; the grid starts at 0,
    ends at 3 and is strictly ascending; its gaps are equal up to rounding
    only, each within [2^-51] of [3/99]; and each sample is the evaluator
    at [rf], [rm] and the grid value of the same index.  This in both
    scripts. *)
Theorem sml_curve_generator_binary64 (rf rm : float) :
  sml_curve_contract64 100 (CapmExplained.calculate_capm rf rm)
    CapmExplained.betas64 (CapmExplained.returns64 rf rm) /\
  sml_curve_contract64 100 (Capm.calculate_capm rf rm)
    Capm.betas64 (Capm.returns64 rf rm).
Proof.
  split.
  - apply betas64_contract.
  - rewrite betas64_same, returns64_same. apply betas64_contract.
Qed.

(** The grid the scripts plot is not evenly spaced: the gap from sample 8
    to sample 9 is smaller than the gap from sample 7 to sample 8. *)
Lemma sml_grid_gaps_differ :
  CapmExplained.betas64 !! 7%nat = Some 0.21212121212121213%float /\
  CapmExplained.betas64 !! 8%nat = Some 0.24242424242424243%float /\
  CapmExplained.betas64 !! 9%nat = Some 0.27272727272727271%float /\
  (0.27272727272727271 - 0.24242424242424243
   <? 0.24242424242424243 - 0.21212121212121213)%float = true /\
  Capm.betas64 = CapmExplained.betas64.
Proof. repeat split; vm_compute; reflexivity. Qed.




(** C4. At beta zero the expected return is the risk-free
    rate: for all ints, and for all floats [rf], [rm] such that [rf] and
    the difference [rm - rf] are finite; when [rm - rf] overflows the
    result is nan. *)
Theorem calculate_capm_beta_zero_ints_and_finite :
  (forall (rf rm : Z) (st : Streamlit.session_state),
      Python.call3 CapmExplained.calculate_capm
        (Python.PyInt rf) (Python.PyInt rm) (Python.PyInt 0) st
      = (Python.Returns (Python.PyInt rf), st)) /\
  (forall rf rm : float,
      Binary64.finite rf = true -> Binary64.finite (rm - rf)%float = true ->
      (CapmExplained.calculate_capm rf rm 0 =? rf)%float = true).
Proof.
  split.
  - intros rf rm st. rewrite call3_ints. do 3 f_equal. ring.
  - apply beta_zero_finite.
Qed.

(** The scenario of the specification, [rf = 0.04], [rm = 0.10]. *)
Lemma calculate_capm_beta_zero_ints_and_finite_witness :
  (CapmExplained.calculate_capm 0.04 0.10 0 =? 0.04)%float = true.
Proof.
  apply (proj2 calculate_capm_beta_zero_ints_and_finite 0.04%float 0.10%float);
    vm_compute; reflexivity.
Defined.

(** [rf = 1e308], [rm = -1e308]: the difference overflows and the result
    is nan, which is not [rf]. *)
Lemma calculate_capm_beta_zero_overflow :
  Binary64.finite 1e308 = true /\
  Binary64.finite (-1e308) = true /\
  CapmExplained.calculate_capm 1e308%float (-1e308)%float 0%float = nan /\
  (CapmExplained.calculate_capm 1e308 (-1e308) 0 =? 1e308)%float = false.
Proof. repeat split; vm_compute; reflexivity. Qed.

(** C5. At beta one the expected return is the market return:
    exactly for all ints; on floats up to rounding, within [2^-56] of [rm]
    at every position of the two sliders, and not always equal to it. *)
Theorem calculate_capm_beta_one_ints_and_sliders :
  (forall (rf rm : Z) (st : Streamlit.session_state),
      Python.call3 CapmExplained.calculate_capm
        (Python.PyInt rf) (Python.PyInt rm) (Python.PyInt 1) st
      = (Python.Returns (Python.PyInt rm), st)) /\
  (forall rf rm : float,
      In rf (Binary64.grid 10) -> In rm (Binary64.grid 20) ->
      (abs (CapmExplained.calculate_capm rf rm 1 - rm) <=? 0x1p-56)%float = true).
Proof.
  split.
  - intros rf rm st. rewrite call3_ints. do 3 f_equal. ring.
  - apply grid_beta_one.
Qed.

(** The sliders at [rf = 0.04], [rm = 0.11]. *)
Lemma calculate_capm_beta_one_ints_and_sliders_witness :
  (abs (CapmExplained.calculate_capm 0.04 0.11 1 - 0.11) <=? 0x1p-56)%float = true.
Proof.
  apply (proj2 calculate_capm_beta_one_ints_and_sliders 0.04%float 0.11%float).
  - apply lookup_In with 4%nat. vm_compute. reflexivity.
  - apply lookup_In with 11%nat. vm_compute. reflexivity.
Defined.

(** At [rf = 0.04], [rm = 0.11], both slider positions, the result is the
    float just above [0.11]. *)
Lemma calculate_capm_beta_one_rounds :
  CapmExplained.calculate_capm 0.04%float 0.11%float 1%float
    = 0.11000000000000001%float /\
  (CapmExplained.calculate_capm 0.04 0.11 1 =? 0.11)%float = false.
Proof. split; vm_compute; reflexivity. Qed.

(** C6. Each of the six buttons overwrites the three slider values with the
    constant triple of its row in the preset table, whatever the session
    state was before, and leaves every other key alone; the reset callback
    of [capm.py] does the same; Lab 3 gives exactly [(0.01, 0.05, 0.5)]. *)
Theorem presets_overwrite_state (st : Streamlit.session_state) :
  (forall b : CapmExplained.button,
      Streamlit.parameters (CapmExplained.on_click b st) =
      (Some (spec_preset_table b).1.1,
       Some (spec_preset_table b).1.2,
       Some (spec_preset_table b).2)) /\
  (forall (b : CapmExplained.button) (k : string),
      k <> "rf_slider" -> k <> "rm_slider" -> k <> "beta_slider" ->
      CapmExplained.on_click b st !! k = st !! k) /\
  Streamlit.parameters (CapmExplained.set_lab3_parameters st) =
    (Some 0.01, Some 0.05, Some 0.5) /\
  Streamlit.parameters (Capm.reset_parameters st) =
    (Some 0.02, Some 0.08, Some 1.0).
Proof.
  split; [|split; [|split]].
  - intros []; apply setitem3_parameters.
  - intros [] k H1 H2 H3; now apply setitem3_frame.
  - apply setitem3_parameters.
  - apply setitem3_parameters.
Qed.

(** The same on a state that already holds other values, and on the empty
    state of a fresh session. *)
Lemma presets_overwrite_state_witness :
  Streamlit.parameters
    (CapmExplained.on_click CapmExplained.SetLab3
       (<["rf_slider" := 0.1]> (<["beta_slider" := 3]> (<["zoom" := 4]> ∅))))
    = (Some 0.01, Some 0.05, Some 0.5) /\
  CapmExplained.on_click CapmExplained.SetLab3
    (<["rf_slider" := 0.1]> (<["beta_slider" := 3]> (<["zoom" := 4]> ∅)))
    !! "zoom" = Some 4 /\
  Streamlit.parameters (CapmExplained.on_click CapmExplained.SetLab3 ∅)
    = (Some 0.01, Some 0.05, Some 0.5).
Proof.
  split; [|split].
  - apply (proj1 (presets_overwrite_state _) CapmExplained.SetLab3).
  - rewrite (proj1 (proj2 (presets_overwrite_state _)) CapmExplained.SetLab3)
      by discriminate.
    now simplify_map_eq.
  - apply (proj1 (presets_overwrite_state _) CapmExplained.SetLab3).
Defined.

(** C7. At [rf = 0.02], [rm = 0.08], [beta = 1.5] the expected return is
    [0.11]: as a real number, and bit for bit on binary64 values. *)
Theorem calculate_capm_lab1_scenario :
  CapmExplained.calculate_capm 0.02 0.08 1.5 = 0.11 /\
  CapmExplained.calculate_capm 0.02%float 0.08%float 1.5%float = 0.11%float.
Proof.
  split.
  - capm_unfold. lra.
  - vm_compute. reflexivity.
Qed.

(** C8. A call of the evaluator with three floats, whatever
    their values, returns a float and leaves the session state as it was;
    so does a call with three ints, which returns an int; the result is
    the closed form on the arguments, so equal inputs give equal outputs.
    A call can fail: an int too large for a float, met with a float, raises
    [OverflowError]. *)
Theorem calculate_capm_calls :
  (forall (rf rm beta : float) (st : Streamlit.session_state),
      Python.call3 CapmExplained.calculate_capm
        (Python.PyFloat rf) (Python.PyFloat rm) (Python.PyFloat beta) st
      = (Python.Returns (Python.PyFloat (rf + beta * (rm - rf))%float), st) /\
      Python.call3 Capm.calculate_capm
        (Python.PyFloat rf) (Python.PyFloat rm) (Python.PyFloat beta) st
      = (Python.Returns (Python.PyFloat (rf + beta * (rm - rf))%float), st)) /\
  (forall (rf rm beta : Z) (st : Streamlit.session_state),
      Python.call3 CapmExplained.calculate_capm
        (Python.PyInt rf) (Python.PyInt rm) (Python.PyInt beta) st
      = (Python.Returns (Python.PyInt (rf + beta * (rm - rf))%Z), st) /\
      Python.call3 Capm.calculate_capm
        (Python.PyInt rf) (Python.PyInt rm) (Python.PyInt beta) st
      = (Python.Returns (Python.PyInt (rf + beta * (rm - rf))%Z), st)).
Proof. split; intros rf rm beta st; split; reflexivity. Qed.

(** [calculate_capm(10**400, 0.5, 0.5)] raises [OverflowError], in both
    scripts: [0.5 - 10**400] has to convert the int. *)
Lemma calculate_capm_overflow_error :
  Python.call3 CapmExplained.calculate_capm
    (Python.PyInt (10 ^ 400)) (Python.PyFloat 0.5) (Python.PyFloat 0.5) ∅
  = (Python.Raises Python.OverflowError, ∅) /\
  Python.call3 Capm.calculate_capm
    (Python.PyInt (10 ^ 400)) (Python.PyFloat 0.5) (Python.PyFloat 0.5) ∅
  = (Python.Raises Python.OverflowError, ∅).
Proof. split; vm_compute; reflexivity. Qed.

(** C9. The two scripts define the same evaluator: on every triple of
    inputs, of any number type, both return the same value. *)
Theorem calculate_capm_scripts_agree (A : Type) (N : PyNum A) (rf rm beta : A) :
  Capm.calculate_capm rf rm beta = CapmExplained.calculate_capm rf rm beta.
Proof. reflexivity. Qed.



(** * The scenarios of the specification, on reals and on binary64

    The three scenarios of the specification come out the same in exact
    arithmetic and on binary64; the beta-one identity does not. *)

Example scenario_lab2 :
  CapmExplained.calculate_capm 0.03 0.12 2.0 = 0.21 /\
  CapmExplained.calculate_capm 0.03%float 0.12%float 2.0%float = 0.21%float.
Proof. split; [capm_unfold; lra | vm_compute; reflexivity]. Qed.

Example scenario_beta_zero :
  CapmExplained.calculate_capm 0.04 0.10 0 = 0.04 /\
  CapmExplained.calculate_capm 0.04%float 0.10%float 0%float = 0.04%float.
Proof. split; [capm_unfold; lra | vm_compute; reflexivity]. Qed.

Example scenario_lab3 :
  CapmExplained.calculate_capm 0.01 0.05 0.5 = 0.03 /\
  CapmExplained.calculate_capm 0.01%float 0.05%float 0.5%float = 0.03%float.
Proof. split; [capm_unfold; lra | vm_compute; reflexivity]. Qed.

Example binary64_beta_one_rounds :
  CapmExplained.calculate_capm 0.04 0.11 1 = 0.11 /\
  CapmExplained.calculate_capm 0.04%float 0.11%float 1%float
    = PrimFloat.next_up 0.11%float.
Proof. split; [capm_unfold; lra | vm_compute; reflexivity]. Qed.

(** * Further properties of the callbacks and of the script run *)

Lemma setitem3_absorbs (a b c a' b' c' : R) (st : Streamlit.session_state) :
  (Streamlit.setitem "rf_slider" a ;;
   Streamlit.setitem "rm_slider" b ;;
   Streamlit.setitem "beta_slider" c)%cb
    ((Streamlit.setitem "rf_slider" a' ;;
      Streamlit.setitem "rm_slider" b' ;;
      Streamlit.setitem "beta_slider" c')%cb st)
  = (Streamlit.setitem "rf_slider" a ;;
     Streamlit.setitem "rm_slider" b ;;
     Streamlit.setitem "beta_slider" c)%cb st.
Proof.
  unfold Streamlit.then_, Streamlit.setitem.
  apply map_eq; intros k.
  destruct (decide (k = "beta_slider")) as [->|Hb]; [now simplify_map_eq|].
  destruct (decide (k = "rm_slider")) as [->|Hm]; [now simplify_map_eq|].
  destruct (decide (k = "rf_slider")) as [->|Hf]; [now simplify_map_eq|].
  now rewrite !lookup_insert_ne by congruence.
Qed.

Lemma setitem3_dom (a b c : R) (st : Streamlit.session_state) :
  dom ((Streamlit.setitem "rf_slider" a ;;
        Streamlit.setitem "rm_slider" b ;;
        Streamlit.setitem "beta_slider" c)%cb st)
  = ({[ "rf_slider"; "rm_slider"; "beta_slider" ]} ∪ dom st : gset string).
Proof.
  unfold Streamlit.then_, Streamlit.setitem.
  rewrite !dom_insert_L.
  apply set_eq; intros k.
  rewrite !elem_of_union, !elem_of_singleton. tauto.
Qed.

(** X1. The last click wins: a button pressed after another leaves the
    session state exactly as if it alone had been pressed; in particular
    pressing a button twice is the same as pressing it once. *)
Theorem on_click_last_wins (a b : CapmExplained.button) (st : Streamlit.session_state) :
  CapmExplained.on_click b (CapmExplained.on_click a st) = CapmExplained.on_click b st /\
  CapmExplained.on_click b (CapmExplained.on_click b st) = CapmExplained.on_click b st.
Proof.
  split; [destruct a|]; destruct b; apply setitem3_absorbs.
Qed.

(** X2. A button never removes a key from the session state and creates no
    key other than the three slider keys. *)
Theorem on_click_dom (b : CapmExplained.button) (st : Streamlit.session_state) :
  dom (CapmExplained.on_click b st)
  = ({[ "rf_slider"; "rm_slider"; "beta_slider" ]} ∪ dom st : gset string).
Proof. destruct b; apply setitem3_dom. Qed.

Lemma setitem3_in_range (a b c : R) (st : Streamlit.session_state) :
  Streamlit.in_range CapmExplained.rf_slider a ->
  Streamlit.in_range CapmExplained.rm_slider b ->
  Streamlit.in_range CapmExplained.beta_slider c ->
  CapmExplained.sliders_in_range
    ((Streamlit.setitem "rf_slider" a ;;
      Streamlit.setitem "rm_slider" b ;;
      Streamlit.setitem "beta_slider" c)%cb st).
Proof.
  intros Ha Hb Hc.
  pose proof (setitem3_parameters a b c st) as Hp.
  unfold Streamlit.parameters in Hp. injection Hp as Hf Hm Hbt.
  unfold CapmExplained.sliders_in_range.
  repeat (apply List.Forall_cons; [simpl; intros v Hv; congruence|]).
  apply List.Forall_nil.
Qed.

Lemma on_click_in_range (b : CapmExplained.button) (st : Streamlit.session_state) :
  CapmExplained.sliders_in_range (CapmExplained.on_click b st).
Proof.
  destruct b; apply setitem3_in_range; unfold Streamlit.in_range; simpl; lra.
Qed.

(** X3. Whatever the state before, after any button every slider key holds
    a value inside the range of its slider: no preset lies outside what the
    sliders can show. *)
Theorem presets_within_slider_ranges (b : CapmExplained.button) (st : Streamlit.session_state) :
  CapmExplained.sliders_in_range (CapmExplained.on_click b st) /\
  exists rf rm beta : R,
    Streamlit.parameters (CapmExplained.on_click b st) = (Some rf, Some rm, Some beta) /\
    Streamlit.in_range CapmExplained.rf_slider rf /\
    Streamlit.in_range CapmExplained.rm_slider rm /\
    Streamlit.in_range CapmExplained.beta_slider beta.
Proof.
  assert (H : exists rf rm beta : R,
    Streamlit.parameters (CapmExplained.on_click b st) = (Some rf, Some rm, Some beta) /\
    Streamlit.in_range CapmExplained.rf_slider rf /\
    Streamlit.in_range CapmExplained.rm_slider rm /\
    Streamlit.in_range CapmExplained.beta_slider beta).
  { destruct b; do 3 eexists;
      (split; [apply setitem3_parameters|]);
      unfold Streamlit.in_range; simpl; lra. }
  split; [apply on_click_in_range | exact H].
Qed.

(** The sidebar in closed form: each slider shows the stored value, or its
    default when the key is missing, and the three values shown are what
    the state holds afterwards. *)
Lemma sidebar_closed_form (st : Streamlit.session_state) :
  CapmExplained.sidebar st =
  let rf := default 0.02 (st !! "rf_slider") in
  let rm := default 0.08 (st !! "rm_slider") in
  let beta := default 1.0 (st !! "beta_slider") in
  ((rf, rm, beta),
   (Streamlit.setitem "rf_slider" rf ;;
    Streamlit.setitem "rm_slider" rm ;;
    Streamlit.setitem "beta_slider" beta)%cb st).
Proof.
  unfold CapmExplained.sidebar, Streamlit.slider, Streamlit.then_, Streamlit.setitem.
  simpl.
  destruct (st !! "rf_slider") as [rf|] eqn:Ef; simpl.
  - rewrite (insert_id st "rf_slider" rf Ef).
    destruct (st !! "rm_slider") as [rm|] eqn:Em; simpl.
    + rewrite (insert_id st "rm_slider" rm Em).
      destruct (st !! "beta_slider") as [beta|] eqn:Eb; simpl.
      * now rewrite (insert_id st "beta_slider" beta Eb).
      * reflexivity.
    + rewrite lookup_insert_ne by done.
      destruct (st !! "beta_slider") as [beta|] eqn:Eb; simpl.
      * rewrite (insert_id (<["rm_slider":=_]> st) "beta_slider" beta); [reflexivity|].
        now rewrite lookup_insert_ne by done.
      * reflexivity.
  - rewrite lookup_insert_ne by done.
    destruct (st !! "rm_slider") as [rm|] eqn:Em; simpl.
    + rewrite (insert_id (<["rf_slider":=_]> st) "rm_slider" rm)
        by now rewrite lookup_insert_ne by done.
      rewrite lookup_insert_ne by done.
      destruct (st !! "beta_slider") as [beta|] eqn:Eb; simpl.
      * rewrite (insert_id (<["rf_slider":=_]> st) "beta_slider" beta); [reflexivity|].
        now rewrite lookup_insert_ne by done.
      * reflexivity.
    + rewrite !lookup_insert_ne by done.
      destruct (st !! "beta_slider") as [beta|] eqn:Eb; simpl.
      * rewrite (insert_id (<["rm_slider":=_]> (<["rf_slider":=_]> st)) "beta_slider" beta);
          [reflexivity|].
        now rewrite !lookup_insert_ne by done.
      * reflexivity.
Qed.

Lemma sidebar_same (st : Streamlit.session_state) :
  Capm.sidebar st = CapmExplained.sidebar st.
Proof. reflexivity. Qed.

Lemma script_with_parameters (st : Streamlit.session_state) (rf rm beta : R) :
  Streamlit.parameters st = (Some rf, Some rm, Some beta) ->
  CapmExplained.script st = (CapmExplained.tab1 rf rm beta, st).
Proof.
  unfold Streamlit.parameters. intros Hp. injection Hp as Hf Hm Hb.
  unfold CapmExplained.script. rewrite sidebar_closed_form, Hf, Hm, Hb. simpl.
  unfold Streamlit.then_, Streamlit.setitem.
  rewrite (insert_id st "rf_slider" rf Hf), (insert_id st "rm_slider" rm Hm),
    (insert_id st "beta_slider" beta Hb).
  reflexivity.
Qed.

(** X4. When the three slider keys are set, to values their sliders can
    show, a run of the script draws the first tab for exactly these values
    and leaves the three slider entries as they were. *)
Theorem script_reads_state (st : Streamlit.session_state) (rf rm beta : R) :
  CapmExplained.sliders_in_range st ->
  Streamlit.parameters st = (Some rf, Some rm, Some beta) ->
  (CapmExplained.script st).1 = CapmExplained.tab1 rf rm beta /\
  Streamlit.parameters (CapmExplained.script st).2 = Streamlit.parameters st.
Proof.
  intros _ Hp. rewrite (script_with_parameters st rf rm beta Hp). simpl.
  split; reflexivity.
Qed.

(** After the Lab 3 button the next run plots the asset at
    [(0.5, 0.01 + 0.5 * (0.05 - 0.01))]. *)
Lemma script_reads_state_witness :
  (CapmExplained.script (CapmExplained.set_lab3_parameters ∅)).1
    = CapmExplained.tab1 0.01 0.05 0.5 /\
  Streamlit.parameters (CapmExplained.script (CapmExplained.set_lab3_parameters ∅)).2
    = Streamlit.parameters (CapmExplained.set_lab3_parameters ∅).
Proof.
  apply (script_reads_state (CapmExplained.set_lab3_parameters ∅) 0.01 0.05 0.5).
  - apply (on_click_in_range CapmExplained.SetLab3).
  - apply setitem3_parameters.
Defined.

(** X5. The reset button restores what a new session shows: the first run
    on an empty session state leaves the three sliders at the values the
    reset callback writes, and after a reset, from any state, the script
    draws the figure of that first run. *)
Theorem reset_matches_fresh_session (st : Streamlit.session_state) :
  Streamlit.parameters (CapmExplained.script ∅).2
    = Streamlit.parameters (CapmExplained.reset_parameters st) /\
  (CapmExplained.script (CapmExplained.reset_parameters st)).1
    = (CapmExplained.script ∅).1 /\
  Streamlit.parameters (CapmExplained.script (CapmExplained.reset_parameters st)).2
    = Streamlit.parameters (CapmExplained.script ∅).2.
Proof.
  assert (H0 : CapmExplained.script ∅
               = (CapmExplained.tab1 0.02 0.08 1.0, CapmExplained.reset_parameters ∅)).
  { unfold CapmExplained.script. rewrite sidebar_closed_form.
    rewrite !lookup_empty. reflexivity. }
  assert (H1 : CapmExplained.script (CapmExplained.reset_parameters st)
               = (CapmExplained.tab1 0.02 0.08 1.0, CapmExplained.reset_parameters st)).
  { apply script_with_parameters, setitem3_parameters. }
  rewrite H0, H1. simpl.
  unfold CapmExplained.reset_parameters. rewrite !setitem3_parameters.
  repeat split.
Qed.

(** X6. On a session state whose slider values are in range, a run of the
    script keeps every slider entry the state holds, leaves all three
    slider keys set, and running the script again gives the same figure
    and the same three slider values. *)
Theorem script_rerun_stable (st : Streamlit.session_state) :
  CapmExplained.sliders_in_range st ->
  (forall (k : string) (v : R),
      k = "rf_slider" \/ k = "rm_slider" \/ k = "beta_slider" ->
      st !! k = Some v -> (CapmExplained.script st).2 !! k = Some v) /\
  (exists rf rm beta : R,
      Streamlit.parameters (CapmExplained.script st).2 = (Some rf, Some rm, Some beta)) /\
  (CapmExplained.script (CapmExplained.script st).2).1 = (CapmExplained.script st).1 /\
  Streamlit.parameters (CapmExplained.script (CapmExplained.script st).2).2
    = Streamlit.parameters (CapmExplained.script st).2.
Proof.
  intros _.
  set (rf := default 0.02 (st !! "rf_slider")).
  set (rm := default 0.08 (st !! "rm_slider")).
  set (beta := default 1.0 (st !! "beta_slider")).
  assert (Hs : CapmExplained.script st =
               (CapmExplained.tab1 rf rm beta,
                (Streamlit.setitem "rf_slider" rf ;;
                 Streamlit.setitem "rm_slider" rm ;;
                 Streamlit.setitem "beta_slider" beta)%cb st)).
  { unfold CapmExplained.script. now rewrite sidebar_closed_form. }
  rewrite Hs. simpl.
  split; [|split].
  - unfold Streamlit.then_, Streamlit.setitem.
    intros k v Hkey Hk. destruct Hkey as [Hkey|[Hkey|Hkey]]; subst k.
    + subst rf. rewrite Hk. now simplify_map_eq.
    + subst rm. rewrite Hk. now simplify_map_eq.
    + subst beta. rewrite Hk. now simplify_map_eq.
  - exists rf, rm, beta. apply setitem3_parameters.
  - rewrite (script_with_parameters _ rf rm beta (setitem3_parameters rf rm beta st)).
    split; reflexivity.
Qed.

(** A session where only the risk-free slider has been moved. *)
Lemma script_rerun_stable_witness :
  (CapmExplained.script (<["rf_slider" := 0.05]> ∅)).2 !! "rf_slider" = Some 0.05 /\
  (CapmExplained.script (CapmExplained.script (<["rf_slider" := 0.05]> ∅)).2).1
    = (CapmExplained.script (<["rf_slider" := 0.05]> ∅)).1.
Proof.
  assert (Hr : CapmExplained.sliders_in_range (<["rf_slider" := 0.05]> ∅)).
  { unfold CapmExplained.sliders_in_range.
    apply List.Forall_cons.
    { simpl. intros v Hv. rewrite lookup_insert_eq in Hv.
      injection Hv as <-. unfold Streamlit.in_range. simpl. lra. }
    repeat (apply List.Forall_cons;
            [simpl; intros v Hv; rewrite lookup_insert_ne, lookup_empty in Hv by done;
             discriminate|]).
    apply List.Forall_nil. }
  destruct (script_rerun_stable _ Hr) as (Hkeep & _ & Hfig & _).
  split; [|exact Hfig].
  apply Hkeep; [now left | apply lookup_insert_eq].
Defined.

(** X7. The slider ranges are an invariant of the script: if every stored
    slider value is in range before a run, the three values the sidebar
    reads are in range, and so is every stored value afterwards. *)
Theorem script_keeps_sliders_in_range (st : Streamlit.session_state) :
  CapmExplained.sliders_in_range st ->
  Streamlit.in_range CapmExplained.rf_slider (CapmExplained.sidebar st).1.1.1 /\
  Streamlit.in_range CapmExplained.rm_slider (CapmExplained.sidebar st).1.1.2 /\
  Streamlit.in_range CapmExplained.beta_slider (CapmExplained.sidebar st).1.2 /\
  CapmExplained.sliders_in_range (CapmExplained.script st).2.
Proof.
  intros Hr. unfold CapmExplained.script. rewrite sidebar_closed_form. simpl.
  unfold CapmExplained.sliders_in_range in Hr.
  rewrite !Forall_cons in Hr. simpl in Hr.
  destruct Hr as (Hf & Hm & Hb & _).
  assert (Rf : Streamlit.in_range CapmExplained.rf_slider (default 0.02 (st !! "rf_slider"))).
  { destruct (st !! "rf_slider") as [v|]; simpl; [now apply Hf|].
    unfold Streamlit.in_range; simpl; lra. }
  assert (Rm : Streamlit.in_range CapmExplained.rm_slider (default 0.08 (st !! "rm_slider"))).
  { destruct (st !! "rm_slider") as [v|]; simpl; [now apply Hm|].
    unfold Streamlit.in_range; simpl; lra. }
  assert (Rb : Streamlit.in_range CapmExplained.beta_slider (default 1.0 (st !! "beta_slider"))).
  { destruct (st !! "beta_slider") as [v|]; simpl; [now apply Hb|].
    unfold Streamlit.in_range; simpl; lra. }
  repeat split; try assumption; try apply Rf; try apply Rm; try apply Rb.
  now apply setitem3_in_range.
Qed.

(** A new session: nothing stored, every slider comes up at its default. *)
Lemma script_keeps_sliders_in_range_witness :
  CapmExplained.sliders_in_range (CapmExplained.script ∅).2.
Proof.
  apply (script_keeps_sliders_in_range ∅).
  unfold CapmExplained.sliders_in_range.
  repeat (apply List.Forall_cons;
          [simpl; intros v Hv; rewrite lookup_empty in Hv; discriminate|]).
  apply List.Forall_nil.
Defined.

(** * Further properties of the chart *)


(** X9. On binary64 the plotted grid hits the betas 0, 1, 2 and 3 exactly,
    at samples 0, 33, 66 and 99, and the curve there is the evaluator at
    these betas; where [rf] and [rm - rf] are finite the first curve point
    equals the level of the dashed risk-free line. *)
Theorem sml_anchor_points (rf rm beta : float) :
  plot_x64 (CapmExplained.tab1_64 rf rm beta) !! 0%nat = Some 0%float /\
  plot_x64 (CapmExplained.tab1_64 rf rm beta) !! 33%nat = Some 1%float /\
  plot_x64 (CapmExplained.tab1_64 rf rm beta) !! 66%nat = Some 2%float /\
  plot_x64 (CapmExplained.tab1_64 rf rm beta) !! 99%nat = Some 3%float /\
  plot_y64 (CapmExplained.tab1_64 rf rm beta) !! 0%nat
    = Some (CapmExplained.calculate_capm rf rm 0%float) /\
  plot_y64 (CapmExplained.tab1_64 rf rm beta) !! 33%nat
    = Some (CapmExplained.calculate_capm rf rm 1%float) /\
  plot_y64 (CapmExplained.tab1_64 rf rm beta) !! 66%nat
    = Some (CapmExplained.calculate_capm rf rm 2%float) /\
  plot_y64 (CapmExplained.tab1_64 rf rm beta) !! 99%nat
    = Some (CapmExplained.calculate_capm rf rm 3%float) /\
  (Binary64.finite rf = true -> Binary64.finite (rm - rf)%float = true ->
   exists r0 : float,
     plot_y64 (CapmExplained.tab1_64 rf rm beta) !! 0%nat = Some r0 /\
     (r0 =? axhline64 (CapmExplained.tab1_64 rf rm beta))%float = true).
Proof.
  assert (H0 : CapmExplained.betas64 !! 0%nat = Some 0%float) by (vm_compute; reflexivity).
  assert (H1 : CapmExplained.betas64 !! 33%nat = Some 1%float) by (vm_compute; reflexivity).
  assert (H2 : CapmExplained.betas64 !! 66%nat = Some 2%float) by (vm_compute; reflexivity).
  assert (H3 : CapmExplained.betas64 !! 99%nat = Some 3%float) by (vm_compute; reflexivity).
  simpl plot_x64. simpl plot_y64. simpl axhline64.
  rewrite !returns64_lookup, H0, H1, H2, H3.
  repeat split.
  intros Hrf Hd. eexists. split; [reflexivity|].
  now apply beta_zero_finite.
Qed.



(** X12. The labs tab shows, for each of the first four radio options, the
    button of that lab and for no other choice; every other choice, the
    fifth option included, falls to the final [else] and shows the Lab 5
    button; the reset button is never shown there. *)
Theorem lab_button_cases (lab_choice : string) :
  (CapmExplained.lab_button lab_choice = CapmExplained.SetLab1
     <-> lab_choice = "Lab 1: Beta Sensitivity"%string) /\
  (CapmExplained.lab_button lab_choice = CapmExplained.SetLab2
     <-> lab_choice = "Lab 2: Market Risk Premium"%string) /\
  (CapmExplained.lab_button lab_choice = CapmExplained.SetLab3
     <-> lab_choice = "Lab 3: Portfolio Construction"%string) /\
  (CapmExplained.lab_button lab_choice = CapmExplained.SetLab4
     <-> lab_choice = "Lab 4: Defensive vs Aggressive Stocks"%string) /\
  (CapmExplained.lab_button lab_choice = CapmExplained.SetLab5
     <-> lab_choice ∉ take 4 CapmExplained.lab_options) /\
  CapmExplained.lab_button lab_choice <> CapmExplained.ResetParameters /\
  CapmExplained.lab_button <$> CapmExplained.lab_options
    = [CapmExplained.SetLab1; CapmExplained.SetLab2; CapmExplained.SetLab3;
       CapmExplained.SetLab4; CapmExplained.SetLab5].
Proof.
  unfold CapmExplained.lab_button, CapmExplained.lab_options. simpl take.
  rewrite !not_elem_of_cons.
  destruct (String.eqb_spec lab_choice "Lab 1: Beta Sensitivity") as [->|N1].
  { repeat split; intros; try discriminate; try reflexivity; try tauto. }
  destruct (String.eqb_spec lab_choice "Lab 2: Market Risk Premium") as [->|N2].
  { repeat split; intros; try discriminate; try reflexivity; try tauto. }
  destruct (String.eqb_spec lab_choice "Lab 3: Portfolio Construction") as [->|N3].
  { repeat split; intros; try discriminate; try reflexivity; try tauto. }
  destruct (String.eqb_spec lab_choice "Lab 4: Defensive vs Aggressive Stocks") as [->|N4].
  { repeat split; intros; try discriminate; try reflexivity; try tauto. }
  repeat split; intros; try discriminate; try reflexivity; try tauto;
    try apply not_elem_of_nil.
Qed.


